(** * Health-check service: FastAPI app with permissive CORS

    Shallow embedding of [src/backend/src/main.py] and
    [src/backend/src/routes/health.py], together with the parts of the
    FastAPI / Starlette request pipeline that decide what the application
    answers: the router built by [FastAPI()] and [include_router], the
    [CORSMiddleware] configured in [main.py], FastAPI's exception handlers
    and Starlette's [ServerErrorMiddleware]. *)

From Stdlib Require Import String Ascii List ZArith Bool.
Import ListNotations.
Open Scope string_scope.
Open Scope Z_scope.
Set Warnings "-register-all".

(** ** Data model *)

(** JSON values as produced by [jsonable_encoder] (the constructors the
    application uses). *)
Inductive Json : Type :=
| JNull
| JBool (b : bool)
| JNum (n : Z)
| JStr (s : string)
| JArr (xs : list Json)
| JObj (fields : list (string * Json)).

(** Header lists as ASGI carries them: ASGI servers deliver request header
    names lower-cased, and Starlette stores response header names
    lower-cased. *)
Definition Headers := list (string * string).

(** [Headers.get]: the first value stored under [k]. *)
Fixpoint hget (k : string) (hs : Headers) : option string :=
  match hs with
  | [] => None
  | (k', v) :: rest => if String.eqb k k' then Some v else hget k rest
  end.

Definition hmem (k : string) (hs : Headers) : bool :=
  match hget k hs with Some _ => true | None => false end.

Fixpoint hdel (k : string) (hs : Headers) : Headers :=
  match hs with
  | [] => []
  | (k', v) :: rest => if String.eqb k k' then hdel k rest else (k', v) :: hdel k rest
  end.

(** [MutableHeaders.__setitem__]: replace the first entry under [k] and
    drop the others, or append when there is none. *)
Fixpoint hset (k v : string) (hs : Headers) : Headers :=
  match hs with
  | [] => [(k, v)]
  | (k', v') :: rest =>
      if String.eqb k k' then (k, v) :: hdel k rest else (k', v') :: hset k v rest
  end.

(** [MutableHeaders.update]. *)
Definition hupdate (upd : Headers) (hs : Headers) : Headers :=
  fold_left (fun acc '(k, v) => hset k v acc) upd hs.

(** The [scheme] of an ASGI HTTP scope. *)
Inductive Scheme : Type := SHttp | SHttps.

(** An HTTP request as the ASGI scope presents it: method, path (already
    percent-decoded), query string, headers, body, scheme and the optional
    [server] address (host, port); the application is not mounted, so
    [root_path] is empty. *)
Record Request : Type := mkScope {
  method : string;
  path : string;
  query_string : string;
  req_headers : Headers;
  req_body : string;
  scheme : Scheme;
  server : option (string * Z)
}.

(** A plain-HTTP request whose scope carries no server address. *)
Definition mkRequest (m p q : string) (hs : Headers) (b : string) : Request :=
  mkScope m p q hs b SHttp None.

(** Response bodies.  [BDocument] stands for the documents FastAPI
    generates for its built-in documentation routes (the OpenAPI schema
    and the Swagger / ReDoc HTML pages), whose content is not modelled. *)
Inductive Body : Type :=
| BJson (j : Json)
| BText (s : string)
| BEmpty
| BDocument (name : string).

(** A response; the [content-length] header, derived from the encoded
    body bytes, is not modelled. *)
Record Response : Type := mkResponse {
  status : Z;
  resp_headers : Headers;
  resp_body : Body
}.

(** Starlette's [JSONResponse], [PlainTextResponse] and [HTMLResponse]:
    given headers first, then the media type. *)
Definition JSONResponse (content : Json) (code : Z) (hs : Headers) : Response :=
  mkResponse code (app hs [("content-type", "application/json")]) (BJson content).

Definition PlainTextResponse (txt : string) (code : Z) (hs : Headers) : Response :=
  mkResponse code (app hs [("content-type", "text/plain; charset=utf-8")]) (BText txt).

Definition HTMLResponse (doc : string) : Response :=
  mkResponse 200 [("content-type", "text/html; charset=utf-8")] (BDocument doc).

(** Exceptions raised inside the application. *)
Inductive Exc : Type :=
| HTTPException (code : Z) (hs : Headers)
| ResponseValidationError
| InternalError.

Definition Result (A : Type) : Type := (A + Exc)%type.

(** ** Coroutines

    An [async def] body is a coroutine: it either finishes with a value or
    suspends at an [await] on some operation and is resumed by the event
    loop. *)
Inductive AwaitOp : Type :=
| AwaitIO
| AwaitLock
| AwaitSleep.

Inductive Coro (A : Type) : Type :=
| Done (a : A)
| Suspend (op : AwaitOp) (k : unit -> Coro A).

Arguments Done {A} a.
Arguments Suspend {A} op k.

(** What [coro.send(None)] does on a fresh coroutine. *)
Inductive SendResult (A : Type) : Type :=
| StopIteration (a : A)
| Yielded (op : AwaitOp).

Arguments StopIteration {A} a.
Arguments Yielded {A} op.

Definition first_send {A} (c : Coro A) : SendResult A :=
  match c with
  | Done a => StopIteration a
  | Suspend op _ => Yielded op
  end.

(** The operations a coroutine awaits, in order. *)
Fixpoint awaited_ops {A} (c : Coro A) : list AwaitOp :=
  match c with
  | Done _ => []
  | Suspend op k => op :: awaited_ops (k tt)
  end.

Definition suspensions {A} (c : Coro A) : nat := length (awaited_ops c).

(** The event loop drives a coroutine to completion over a world [W]; each
    awaited operation acts on the world through [exec_op]. *)
Section EventLoop.
Variable W : Type.
Variable exec_op : AwaitOp -> W -> W.

Fixpoint run_coro {A} (c : Coro A) (w : W) : W * A :=
  match c with
  | Done a => (w, a)
  | Suspend op k => run_coro (k tt) (exec_op op w)
  end.
End EventLoop.

Arguments run_coro {W} exec_op {A} c w.

(** ** [routes/health.py] *)

(** [async def health_check() -> T.Dict[str, str]: return {"status": "ok"}] *)
Definition health_check : Coro Json := Done (JObj [("status", JStr "ok")]).

(** ** FastAPI route handling *)

(** [str(n)] for a non-negative integer. *)
Fixpoint digits_aux (fuel : nat) (n : Z) (acc : string) : string :=
  match fuel with
  | O => acc
  | S f =>
      let d := ascii_of_nat (48 + Z.to_nat (n mod 10)) in
      let acc' := String d acc in
      if n <? 10 then acc' else digits_aux f (n / 10) acc'
  end.

Definition str_of_Z (n : Z) : string := digits_aux 32 n "".

(** [http.HTTPStatus(code).phrase] for the codes the pipeline raises. *)
Definition status_phrase (code : Z) : string :=
  if code =? 400 then "Bad Request"
  else if code =? 404 then "Not Found"
  else if code =? 405 then "Method Not Allowed"
  else if code =? 500 then "Internal Server Error"
  else "".

(** [serialize_response] against the response model FastAPI derives from
    the return annotation [T.Dict[str, str]]. *)
Definition validate_dict_str_str (v : Json) : Result Json :=
  match v with
  | JObj fields =>
      if forallb (fun '(_, x) => match x with JStr _ => true | _ => false end) fields
      then inl v else inr ResponseValidationError
  | _ => inr ResponseValidationError
  end.

(** [get_request_handler] for an [APIRoute] with no parameters: await the
    endpoint on the event loop (whose awaited operations act on no
    application state), validate the result against the response model,
    and wrap it in a [JSONResponse] with the default status 200. *)
Definition run_api_endpoint (c : Coro Json) : Result Response :=
  let '(_, raw) := run_coro (fun _ (w : unit) => w) c tt in
  match validate_dict_str_str raw with
  | inl content => inl (JSONResponse content 200 [])
  | inr e => inr e
  end.

(** Endpoints of the routing table: the four documentation routes
    [FastAPI()] registers in [setup()], and API routes. *)
Inductive Endpoint : Type :=
| EOpenapi
| ESwaggerUI
| ESwaggerRedirect
| EReDoc
| EApi (c : Coro Json).

Record Route : Type := mkRoute {
  route_path : string;
  route_methods : list string;
  route_endpoint : Endpoint
}.

(** [app.router.routes] after [FastAPI()] and
    [app.include_router(health.router)].  The documentation routes are
    Starlette [Route]s registered with no methods, which become
    [{"GET", "HEAD"}]; [@router.get("/health")] makes an [APIRoute] whose
    methods are [{"GET"}] only. *)
Definition app_routes : list Route :=
  [ mkRoute "/openapi.json" ["GET"; "HEAD"] EOpenapi;
    mkRoute "/docs" ["GET"; "HEAD"] ESwaggerUI;
    mkRoute "/docs/oauth2-redirect" ["GET"; "HEAD"] ESwaggerRedirect;
    mkRoute "/redoc" ["GET"; "HEAD"] EReDoc;
    mkRoute "/health" ["GET"] (EApi health_check) ].

Inductive Match : Type := MNone | MPartial | MFull.

Definition method_allowed (r : Route) (m : string) : bool :=
  existsb (String.eqb m) (route_methods r).

(** The compiled path regex [^<path>$] of a parameterless route, run with
    [re.match]: Python's [$] matches at the end of the string and also
    just before a final newline, so the path itself and the path followed
    by one newline are accepted. *)
Definition newline : string := String (ascii_of_nat 10) EmptyString.

Definition path_matches (route_p p : string) : bool :=
  String.eqb p route_p || String.eqb p (route_p ++ newline).

(** [Route.matches]. *)
Definition route_matches (r : Route) (m p : string) : Match :=
  if path_matches (route_path r) p then
    if method_allowed r m then MFull else MPartial
  else MNone.

Definition endpoint_response (e : Endpoint) : Result Response :=
  match e with
  | EOpenapi => inl (mkResponse 200 [("content-type", "application/json")]
                                (BDocument "openapi.json"))
  | ESwaggerUI => inl (HTMLResponse "swagger-ui")
  | ESwaggerRedirect => inl (HTMLResponse "swagger-ui-oauth2-redirect")
  | EReDoc => inl (HTMLResponse "redoc")
  | EApi c => run_api_endpoint c
  end.

(** [Route.handle]: a method outside the route's set raises
    [HTTPException(405)] with an [Allow] header.  The source joins a Python
    set, whose iteration order depends on the hash seed; the model joins
    the methods in listed order, one of the possible orders, so for a set
    of more than one method the header value here is one of several the
    source can send. *)
Definition route_handle (r : Route) (req : Request) : Result Response :=
  if method_allowed r (method req) then endpoint_response (route_endpoint r)
  else inr (HTTPException 405 [("allow", String.concat ", " (route_methods r))]).

Inductive RouteHit : Type :=
| HitFull (r : Route)
| HitPartial (r : Route)
| NoHit.

(** The loop of [Router.app]: the first full match wins; otherwise the
    first partial match is kept. *)
Fixpoint find_route (rs : list Route) (m p : string) (partial : option Route) : RouteHit :=
  match rs with
  | [] => match partial with Some r => HitPartial r | None => NoHit end
  | r :: rest =>
      match route_matches r m p with
      | MFull => HitFull r
      | MPartial =>
          find_route rest m p (match partial with None => Some r | Some _ => partial end)
      | MNone => find_route rest m p partial
      end
  end.

(** [path.rstrip("/")] and [path.endswith("/")]. *)
Fixpoint drop_slashes (cs : list ascii) : list ascii :=
  match cs with
  | "/"%char :: rest => drop_slashes rest
  | _ => cs
  end.

Definition rstrip_slash (p : string) : string :=
  string_of_list_ascii (rev (drop_slashes (rev (list_ascii_of_string p)))).

Definition ends_with_slash (p : string) : bool :=
  match rev (list_ascii_of_string p) with
  | "/"%char :: _ => true
  | _ => false
  end.

(** The path [Router.app] tries for a slash redirect. *)
Definition redirect_path (p : string) : string :=
  if ends_with_slash p then rstrip_slash p else p ++ "/".

Definition scheme_name (sc : Scheme) : string :=
  match sc with SHttp => "http" | SHttps => "https" end.

Definition default_port (sc : Scheme) : Z :=
  match sc with SHttp => 80 | SHttps => 443 end.

(** [URL(scope=...)] for a scope whose path is [p]: the [host] header
    when there is one, otherwise the [server] address (the port left out
    when it is the scheme's default), otherwise the bare path; then the
    query string. *)
Definition url_of_scope (req : Request) (p : string) : string :=
  let sc := scheme_name (scheme req) in
  let base :=
    match hget "host" (req_headers req) with
    | Some h => sc ++ "://" ++ h ++ p
    | None =>
        match server req with
        | None => p
        | Some (host, port) =>
            if port =? default_port (scheme req) then sc ++ "://" ++ host ++ p
            else sc ++ "://" ++ host ++ ":" ++ str_of_Z port ++ p
        end
    end in
  if String.eqb (query_string req) "" then base else base ++ "?" ++ query_string req.

(** [urllib.parse.quote(url, safe=":/%#?=@[]!$&'()*+,;")]: letters,
    digits, [_.-~] and the safe characters stay, every other character is
    percent-encoded, byte by byte of its UTF-8 encoding (a character is a
    code point below 256 here), with upper-case hex digits. *)
Definition hex_digit (n : nat) : ascii :=
  if (n <? 10)%nat then ascii_of_nat (48 + n) else ascii_of_nat (55 + n).

Definition pct_byte (n : nat) : list ascii :=
  ["%"%char; hex_digit (n / 16); hex_digit (n mod 16)].

Definition quote_safe (c : ascii) : bool :=
  let n := nat_of_ascii c in
  ((48 <=? n) && (n <=? 57))%nat || ((65 <=? n) && (n <=? 90))%nat
  || ((97 <=? n) && (n <=? 122))%nat
  || existsb (Ascii.eqb c) (list_ascii_of_string "_.-~:/%#?=@[]!$&'()*+,;").

Definition quote_char (c : ascii) : list ascii :=
  let n := nat_of_ascii c in
  if quote_safe c then [c]
  else if (n <? 128)%nat then pct_byte n
  else pct_byte (192 + n / 64) ++ pct_byte (128 + n mod 64).

Definition quote (s : string) : string :=
  string_of_list_ascii (flat_map quote_char (list_ascii_of_string s)).

(** [RedirectResponse(url=str(URL(scope=redirect_scope)))]: status 307,
    the quoted URL as [location], an empty body. *)
Definition RedirectResponse (req : Request) (p : string) : Response :=
  mkResponse 307 [("location", quote (url_of_scope req p))] BEmpty.

(** [Router.app] with [redirect_slashes=True]; an unmatched request raises
    [HTTPException(404)] because the scope carries the application. *)
Definition router (req : Request) : Result Response :=
  match find_route app_routes (method req) (path req) None with
  | HitFull r => route_handle r req
  | HitPartial r => route_handle r req
  | NoHit =>
      let p' := redirect_path (path req) in
      if negb (String.eqb (path req) "/")
         && existsb (fun r => match route_matches r (method req) p' with
                              | MNone => false | _ => true end) app_routes
      then inl (RedirectResponse req p')
      else inr (HTTPException 404 [])
  end.

(** FastAPI's [http_exception_handler], installed in the
    [ExceptionMiddleware]; other exceptions propagate. *)
Definition is_body_allowed_for_status_code (code : Z) : bool :=
  negb ((code <? 200) || (code =? 204) || (code =? 205) || (code =? 304)).

Definition exception_mw (inner : Request -> Result Response) (req : Request)
  : Result Response :=
  match inner req with
  | inr (HTTPException code hs) =>
      if is_body_allowed_for_status_code code
      then inl (JSONResponse (JObj [("detail", JStr (status_phrase code))]) code hs)
      else inl (mkResponse code hs BEmpty)
  | other => other
  end.

(** ** [CORSMiddleware] *)

Definition lower_ascii (c : ascii) : ascii :=
  let n := nat_of_ascii c in
  if (65 <=? n)%nat && (n <=? 90)%nat then ascii_of_nat (n + 32) else c.

Definition lower (s : string) : string :=
  string_of_list_ascii (map lower_ascii (list_ascii_of_string s)).

(** [s.split(",")]. *)
Fixpoint split_comma_aux (cs : list ascii) (cur : list ascii) : list string :=
  match cs with
  | [] => [string_of_list_ascii (rev cur)]
  | c :: rest =>
      if Ascii.eqb c ","%char then string_of_list_ascii (rev cur) :: split_comma_aux rest []
      else split_comma_aux rest (c :: cur)
  end.

Definition split_comma (s : string) : list string :=
  split_comma_aux (list_ascii_of_string s) [].

(** [s.strip()] on spaces and tabs. *)
Fixpoint drop_blank (cs : list ascii) : list ascii :=
  match cs with
  | c :: rest => if Ascii.eqb c " "%char || Ascii.eqb c (ascii_of_nat 9)
                 then drop_blank rest else cs
  | [] => []
  end.

Definition strip (s : string) : string :=
  string_of_list_ascii (rev (drop_blank (rev (drop_blank (list_ascii_of_string s))))).

Definition ALL_METHODS : list string :=
  ["DELETE"; "GET"; "HEAD"; "OPTIONS"; "PATCH"; "POST"; "PUT"].

Definition SAFELISTED_HEADERS : list string :=
  ["Accept"; "Accept-Language"; "Content-Language"; "Content-Type"].

(** The constructor arguments of [CORSMiddleware] ([allow_origin_regex] is
    left at [None] by [main.py] and not modelled). *)
Record CORSConfig : Type := mkCORSConfig {
  allow_origins : list string;
  allow_methods : list string;
  allow_headers : list string;
  allow_credentials : bool;
  expose_headers : list string;
  max_age : Z
}.

(** [app.add_middleware(CORSMiddleware, allow_origins=["*"],
    allow_credentials=True, allow_methods=["*"], allow_headers=["*"])];
    [expose_headers] and [max_age] keep their defaults. *)
Definition main_cors : CORSConfig :=
  mkCORSConfig ["*"] ["*"] ["*"] true [] 600.

Definition has_star (xs : list string) : bool := existsb (String.eqb "*") xs.

(** The attributes [CORSMiddleware.__init__] derives. *)
Definition cors_allow_methods (cfg : CORSConfig) : list string :=
  if has_star (allow_methods cfg) then ALL_METHODS else allow_methods cfg.

Definition allow_all_origins (cfg : CORSConfig) : bool := has_star (allow_origins cfg).

Definition allow_all_headers (cfg : CORSConfig) : bool := has_star (allow_headers cfg).

Definition preflight_explicit_allow_origin (cfg : CORSConfig) : bool :=
  negb (allow_all_origins cfg) || allow_credentials cfg.

(** The explicit header list (the safelisted ones and the configured ones,
    lower-cased; the source also sorts and deduplicates it). *)
Definition cors_allow_headers (cfg : CORSConfig) : list string :=
  map lower (app SAFELISTED_HEADERS (allow_headers cfg)).

Definition simple_headers (cfg : CORSConfig) : Headers :=
  ((if allow_all_origins cfg then [("access-control-allow-origin", "*")] else [])
  ++ (if allow_credentials cfg then [("access-control-allow-credentials", "true")] else [])
  ++ (match expose_headers cfg with
      | [] => []
      | eh => [("access-control-expose-headers", String.concat ", " eh)]
      end))%list.

Definition preflight_headers (cfg : CORSConfig) : Headers :=
  ((if preflight_explicit_allow_origin cfg then [("vary", "Origin")]
   else [("access-control-allow-origin", "*")])
  ++ [("access-control-allow-methods", String.concat ", " (cors_allow_methods cfg));
      ("access-control-max-age", str_of_Z (max_age cfg))]
  ++ (if negb (allow_all_headers cfg)
      then [("access-control-allow-headers", String.concat ", " (cors_allow_headers cfg))]
      else [])
  ++ (if allow_credentials cfg then [("access-control-allow-credentials", "true")] else []))%list.

Definition is_allowed_origin (cfg : CORSConfig) (origin : string) : bool :=
  allow_all_origins cfg || existsb (String.eqb origin) (allow_origins cfg).

(** [preflight_response]: the failures collected in order, then a 400 or a
    200 plain-text response.  Keys added to the header dict go at its end,
    or replace the value in place when already present. *)
Definition preflight_response (cfg : CORSConfig) (rh : Headers) : Response :=
  let requested_origin := match hget "origin" rh with Some o => o | None => "" end in
  let requested_method :=
    match hget "access-control-request-method" rh with Some m => m | None => "" end in
  let requested_headers := hget "access-control-request-headers" rh in
  let h0 := preflight_headers cfg in
  let origin_ok := is_allowed_origin cfg requested_origin in
  let h1 := if origin_ok && preflight_explicit_allow_origin cfg
            then hset "access-control-allow-origin" requested_origin h0 else h0 in
  let f_origin := if origin_ok then [] else ["origin"] in
  let f_method :=
    if existsb (String.eqb requested_method) (cors_allow_methods cfg) then [] else ["method"] in
  let '(h2, f_headers) :=
    match requested_headers with
    | Some rq =>
        if allow_all_headers cfg then (hset "access-control-allow-headers" rq h1, [])
        else if forallb (fun h => existsb (String.eqb (strip h)) (cors_allow_headers cfg))
                        (map lower (split_comma rq))
        then (h1, []) else (h1, ["headers"])
    | None => (h1, [])
    end in
  match (f_origin ++ f_method ++ f_headers)%list with
  | [] => PlainTextResponse "OK" 200 h2
  | failures => PlainTextResponse ("Disallowed CORS " ++ String.concat ", " failures) 400 h2
  end.

(** [MutableHeaders.add_vary_header]. *)
Definition add_vary_header (value : string) (hs : Headers) : Headers :=
  match hget "vary" hs with
  | Some v => hset "vary" (v ++ ", " ++ value) hs
  | None => hset "vary" value hs
  end.

Definition allow_explicit_origin (origin : string) (hs : Headers) : Headers :=
  add_vary_header "Origin" (hset "access-control-allow-origin" origin hs).

(** [CORSMiddleware.send]: rewrites the headers of the
    [http.response.start] message only; status and body pass through. *)
Definition cors_send (cfg : CORSConfig) (rh : Headers) (origin : string) (r : Response)
  : Response :=
  let hs := hupdate (simple_headers cfg) (resp_headers r) in
  let has_cookie := hmem "cookie" rh in
  let hs' :=
    if allow_all_origins cfg && has_cookie then allow_explicit_origin origin hs
    else if negb (allow_all_origins cfg) && is_allowed_origin cfg origin
    then allow_explicit_origin origin hs
    else hs in
  mkResponse (status r) hs' (resp_body r).

(** [CORSMiddleware.__call__]. *)
Definition cors_mw (cfg : CORSConfig) (inner : Request -> Result Response) (req : Request)
  : Result Response :=
  let rh := req_headers req in
  match hget "origin" rh with
  | None => inner req
  | Some origin =>
      if String.eqb (method req) "OPTIONS" && hmem "access-control-request-method" rh
      then inl (preflight_response cfg rh)
      else match inner req with
           | inl r => inl (cors_send cfg rh origin r)
           | inr e => inr e
           end
  end.

(** [ServerErrorMiddleware] (debug off): an escaping exception becomes a
    500 plain-text response. *)
Definition server_error_mw (inner : Request -> Result Response) (req : Request) : Response :=
  match inner req with
  | inl r => r
  | inr _ => PlainTextResponse "Internal Server Error" 500 []
  end.

(** ** [main.py]: the application *)

(** The middleware stack [app] builds:
    [ServerErrorMiddleware(CORSMiddleware(ExceptionMiddleware(router)))]. *)
Definition asgi_app (req : Request) : Response :=
  server_error_mw (cors_mw main_cors (exception_mw router)) req.

(** The only state [app] keeps: [Starlette.__call__] builds its middleware
    stack on the first call and caches it. *)
Record ServerState : Type := mkServerState { middleware_stack_built : bool }.

Definition serve (st : ServerState) (req : Request) : ServerState * Response :=
  let st' := if middleware_stack_built st then st else mkServerState true in
  (st', asgi_app req).

(** Serving requests one after another: the state after each request and
    its response. *)
Fixpoint serve_trace (st : ServerState) (reqs : list Request) : list (ServerState * Response) :=
  match reqs with
  | [] => []
  | req :: rest =>
      let '(st', resp) := serve st req in (st', resp) :: serve_trace st' rest
  end.

(** ** Auxiliary definitions for the statements *)

(** The payload of [health_check] and the response FastAPI builds from it. *)
Definition health_payload : Json := JObj [("status", JStr "ok")].

Definition health_response : Response := JSONResponse health_payload 200 [].

(** A CORS preflight as [CORSMiddleware.__call__] recognises it. *)
Definition is_preflight (req : Request) : bool :=
  match hget "origin" (req_headers req) with
  | Some _ => String.eqb (method req) "OPTIONS"
              && hmem "access-control-request-method" (req_headers req)
  | None => false
  end.

(** The paths of the documentation routes [FastAPI()] registers. *)
Definition doc_paths : list string :=
  ["/openapi.json"; "/docs"; "/docs/oauth2-redirect"; "/redoc"].


(** ** Header lemmas *)

Lemma hget_hdel_same (k : string) (hs : Headers) : hget k (hdel k hs) = None.
Proof.
  induction hs as [|[k' v] rest IH]; simpl; [reflexivity|].
  destruct (String.eqb k k') eqn:E; simpl; [exact IH|].
  rewrite E. exact IH.
Qed.

Lemma hget_hdel_other (k k2 : string) (hs : Headers) :
  k <> k2 -> hget k (hdel k2 hs) = hget k hs.
Proof.
  intro Hne. induction hs as [|[k' v] rest IH]; simpl; [reflexivity|].
  destruct (String.eqb k2 k') eqn:E2; simpl.
  - apply String.eqb_eq in E2; subst k'.
    apply String.eqb_neq in Hne. rewrite Hne. exact IH.
  - destruct (String.eqb k k'); [reflexivity | exact IH].
Qed.


Lemma hget_hset_other (k k2 v : string) (hs : Headers) :
  k <> k2 -> hget k (hset k2 v hs) = hget k hs.
Proof.
  intro Hne. induction hs as [|[k' v'] rest IH]; simpl.
  - apply String.eqb_neq in Hne. rewrite Hne. reflexivity.
  - destruct (String.eqb k2 k') eqn:E2; simpl.
    + apply String.eqb_eq in E2; subst k'.
      apply String.eqb_neq in Hne as Hne'. rewrite Hne'.
      apply hget_hdel_other. exact Hne.
    + destruct (String.eqb k k'); [reflexivity | exact IH].
Qed.


(** ** Routing lemmas *)

Lemma router_health (req : Request) :
  method req = "GET" -> path req = "/health" -> router req = inl health_response.
Proof.
  intros Hm Hp. unfold router, route_handle. rewrite Hm, Hp. reflexivity.
Qed.

Lemma app_health_inner (req : Request) :
  method req = "GET" -> path req = "/health" ->
  exception_mw router req = inl health_response.
Proof.
  intros Hm Hp. unfold exception_mw. rewrite (router_health req Hm Hp). reflexivity.
Qed.

Lemma cors_send_status cfg rh o r : status (cors_send cfg rh o r) = status r.
Proof. reflexivity. Qed.

Lemma cors_send_body cfg rh o r : resp_body (cors_send cfg rh o r) = resp_body r.
Proof. reflexivity. Qed.

Lemma asgi_app_health_status_body (req : Request) :
  method req = "GET" -> path req = "/health" ->
  status (asgi_app req) = 200 /\ resp_body (asgi_app req) = BJson health_payload.
Proof.
  intros Hm Hp. unfold asgi_app, server_error_mw, cors_mw.
  rewrite Hm. simpl (String.eqb "GET" "OPTIONS"). simpl andb.
  destruct (hget "origin" (req_headers req)) as [o|];
    rewrite (app_health_inner req Hm Hp); simpl; auto.
Qed.

(** ** Claims about the health handler *)

(** C1: every [GET /health] request, whatever its query string, headers
    and body, is answered with status 200, the JSON body
    [{"status": "ok"}] and content-type [application/json]. *)
Theorem C1_get_health_ok (req : Request)
  (Hm : method req = "GET") (Hp : path req = "/health") :
  status (asgi_app req) = 200
  /\ resp_body (asgi_app req) = BJson (JObj [("status", JStr "ok")])
  /\ hget "content-type" (resp_headers (asgi_app req)) = Some "application/json".
Proof.
  unfold asgi_app, server_error_mw, cors_mw.
  rewrite Hm. simpl (String.eqb "GET" "OPTIONS"). simpl andb.
  destruct (hget "origin" (req_headers req)) as [o|];
    rewrite (app_health_inner req Hm Hp).
  - unfold cors_send. simpl.
    destruct (hmem "cookie" (req_headers req)); simpl; auto.
  - simpl. auto.
Qed.

Lemma C1_get_health_ok_witness :
  let req := mkRequest "GET" "/health" "verbose=1"
               [("origin", "http://example.com"); ("x-trace", "abc")] "ignored" in
  (method req = "GET" /\ path req = "/health") /\
  (status (asgi_app req) = 200
   /\ resp_body (asgi_app req) = BJson (JObj [("status", JStr "ok")])
   /\ hget "content-type" (resp_headers (asgi_app req)) = Some "application/json").
Proof.
  split; [split; reflexivity|].
  apply C1_get_health_ok; reflexivity.
Defined.

Lemma serve_built (st : ServerState) (req : Request) :
  middleware_stack_built (fst (serve st req)) = true.
Proof. destruct st as [[|]]; reflexivity. Qed.

Lemma serve_after_built (st : ServerState) (req : Request) :
  middleware_stack_built st = true -> serve st req = (st, asgi_app req).
Proof. destruct st as [b]; simpl; intros ->; reflexivity. Qed.

(** C4: serving [n+1] identical requests (in particular [GET /health])
    one after another yields [n+1] times the pair of state and response of
    the first one: every response equals the first and the server state
    does not change after the first request. *)
Theorem C4_repeated_requests_identical (st : ServerState) (req : Request) (n : nat) :
  serve_trace st (repeat req (S n)) = repeat (serve st req) (S n).
Proof.
  destruct (serve st req) as [st' r] eqn:E.
  assert (Hb : middleware_stack_built st' = true).
  { pose proof (serve_built st req) as Hs. rewrite E in Hs. exact Hs. }
  assert (Hr : r = asgi_app req).
  { unfold serve in E. injection E. auto. }
  cbn [serve_trace repeat]. rewrite E. f_equal.
  induction n as [|n IH]; cbn [serve_trace repeat]; [reflexivity|].
  rewrite (serve_after_built st' req Hb), <- Hr. f_equal. exact IH.
Qed.

(** C5: the handler's response does not depend on the request: two
    [GET /health] requests differing in query string, headers or body get
    the same response from the route, and the same status and body from
    the application. *)
Theorem C5_health_noninterference (r1 r2 : Request)
  (Hm1 : method r1 = "GET") (Hp1 : path r1 = "/health")
  (Hm2 : method r2 = "GET") (Hp2 : path r2 = "/health") :
  exception_mw router r1 = exception_mw router r2
  /\ status (asgi_app r1) = status (asgi_app r2)
  /\ resp_body (asgi_app r1) = resp_body (asgi_app r2).
Proof.
  rewrite (app_health_inner r1 Hm1 Hp1), (app_health_inner r2 Hm2 Hp2).
  destruct (asgi_app_health_status_body r1 Hm1 Hp1) as [S1 B1].
  destruct (asgi_app_health_status_body r2 Hm2 Hp2) as [S2 B2].
  split; [reflexivity|]. split; congruence.
Qed.

Lemma C5_health_noninterference_witness :
  let r1 := mkRequest "GET" "/health" "" [] "" in
  let r2 := mkRequest "GET" "/health" "a=1&b=2"
              [("origin", "http://example.com"); ("cookie", "sid=1")] "payload" in
  (method r1 = "GET" /\ path r1 = "/health" /\ method r2 = "GET" /\ path r2 = "/health") /\
  (exception_mw router r1 = exception_mw router r2
   /\ status (asgi_app r1) = status (asgi_app r2)
   /\ resp_body (asgi_app r1) = resp_body (asgi_app r2)).
Proof.
  split; [repeat split; reflexivity|].
  apply C5_health_noninterference; reflexivity.
Defined.

(** C6: running the handler cannot fail: the coroutine returns, the
    response-model validation accepts its value, and for every
    [GET /health] request the router answers without raising, so the
    application never turns it into a 500. *)
Theorem C6_health_handler_cannot_fail (req : Request)
  (Hm : method req = "GET") (Hp : path req = "/health") :
  run_api_endpoint health_check = inl health_response
  /\ router req = inl health_response
  /\ status (asgi_app req) <> 500.
Proof.
  split; [reflexivity|]. split; [exact (router_health req Hm Hp)|].
  destruct (asgi_app_health_status_body req Hm Hp) as [Hs _].
  rewrite Hs. discriminate.
Qed.

Lemma C6_health_handler_cannot_fail_witness :
  let req := mkRequest "GET" "/health" "x=y" [("accept", "*/*")] "" in
  (method req = "GET" /\ path req = "/health") /\
  (run_api_endpoint health_check = inl health_response
   /\ router req = inl health_response
   /\ status (asgi_app req) <> 500).
Proof.
  split; [split; reflexivity|].
  apply C6_health_handler_cannot_fail; reflexivity.
Defined.

(** C7: the handler has no side effects: whatever the world the event
    loop runs it in, and whatever the awaited operations would do to that
    world, running [health_check] leaves the world unchanged and returns
    the payload. *)
Theorem C7_health_no_side_effects (W : Type) (exec_op : AwaitOp -> W -> W) (w : W) :
  run_coro exec_op health_check w = (w, health_payload).
Proof. reflexivity. Qed.

(** C8: the handler never suspends: its coroutine finishes on the first
    [send] (it is declared [async def] but contains no [await]), and it
    awaits no operation at all, in particular no I/O and no lock. *)
Theorem C8_health_never_suspends :
  first_send health_check = StopIteration health_payload
  /\ awaited_ops health_check = []
  /\ suspensions health_check = 0%nat.
Proof. repeat split. Qed.

(** ** Routing: which branch of [Router.app] answers *)

Lemma find_route_full (rs : list Route) (m p : string) (partial : option Route) (r : Route) :
  find_route rs m p partial = HitFull r -> In r rs /\ route_matches r m p = MFull.
Proof.
  revert partial. induction rs as [|r0 rest IH]; intros partial H; simpl in H.
  - destruct partial; discriminate.
  - destruct (route_matches r0 m p) eqn:E.
    + destruct (IH _ H) as [Hin Hm]. split; [right; exact Hin | exact Hm].
    + destruct (IH _ H) as [Hin Hm]. split; [right; exact Hin | exact Hm].
    + injection H as <-. split; [left; reflexivity | exact E].
Qed.

Lemma find_route_partial (rs : list Route) (m p : string) (partial : option Route) (r : Route) :
  find_route rs m p partial = HitPartial r ->
  (In r rs /\ route_matches r m p = MPartial) \/ partial = Some r.
Proof.
  revert partial. induction rs as [|r0 rest IH]; intros partial H; simpl in H.
  - destruct partial as [r1|]; [injection H as ->; right; reflexivity | discriminate].
  - destruct (route_matches r0 m p) eqn:E.
    + destruct (IH _ H) as [[Hin Hm] | Hp]; [left; split; [right|]; assumption | right; exact Hp].
    + destruct (IH _ H) as [[Hin Hm] | Hp]; [left; split; [right|]; assumption |].
      destruct partial as [r1|]; [right; exact Hp|].
      injection Hp as ->. left. split; [left; reflexivity | exact E].
    + discriminate.
Qed.

Lemma find_route_some (rs : list Route) (m p : string) (r : Route) :
  find_route rs m p (Some r) <> NoHit.
Proof.
  induction rs as [|r0 rest IH]; simpl; [discriminate|].
  destruct (route_matches r0 m p); [exact IH | exact IH | discriminate].
Qed.

Lemma find_route_none (rs : list Route) (m p : string) (partial : option Route) :
  find_route rs m p partial = NoHit -> Forall (fun r => route_matches r m p = MNone) rs.
Proof.
  revert partial. induction rs as [|r0 rest IH]; intros partial H; simpl in H.
  - constructor.
  - destruct (route_matches r0 m p) eqn:E; [| |discriminate].
    + constructor; [exact E | exact (IH _ H)].
    + exfalso. destruct partial as [r1|]; exact (find_route_some _ _ _ _ H).
Qed.

(** The route-level response of the documentation and API endpoints. *)
Lemma endpoint_response_app_routes (rt : Route) :
  In rt app_routes -> exists r, endpoint_response (route_endpoint rt) = inl r.
Proof.
  simpl. intros [<-|[<-|[<-|[<-|[<-|[]]]]]]; eexists; reflexivity.
Qed.

Definition method_not_allowed_response (rt : Route) : Response :=
  JSONResponse (JObj [("detail", JStr "Method Not Allowed")]) 405
    [("allow", String.concat ", " (route_methods rt))].

Definition not_found_response : Response :=
  JSONResponse (JObj [("detail", JStr "Not Found")]) 404 [].

(** What [ExceptionMiddleware(router)] answers, by branch of the routing
    loop. *)
Lemma inner_cases (req : Request) :
  (exists rt, In rt app_routes /\ route_matches rt (method req) (path req) = MFull
              /\ exception_mw router req = endpoint_response (route_endpoint rt))
  \/ (exists rt, In rt app_routes /\ route_matches rt (method req) (path req) = MPartial
                 /\ exception_mw router req = inl (method_not_allowed_response rt))
  \/ (Forall (fun r => route_matches r (method req) (path req) = MNone) app_routes
      /\ (exception_mw router req
            = inl (RedirectResponse req (redirect_path (path req)))
          \/ exception_mw router req = inl not_found_response)).
Proof.
  unfold exception_mw, router.
  destruct (find_route app_routes (method req) (path req) None) as [rt|rt|] eqn:E.
  - left. destruct (find_route_full _ _ _ _ _ E) as [Hin Hm].
    exists rt. split; [exact Hin|]. split; [exact Hm|].
    unfold route_handle. unfold route_matches in Hm.
    destruct (path_matches (route_path rt) (path req)); [|discriminate].
    destruct (method_allowed rt (method req)); [|discriminate].
    destruct (endpoint_response_app_routes rt Hin) as [r Hr]. rewrite Hr. reflexivity.
  - right. left. destruct (find_route_partial _ _ _ _ _ E) as [[Hin Hm] | Hn]; [|discriminate].
    exists rt. split; [exact Hin|]. split; [exact Hm|].
    unfold route_handle. unfold route_matches in Hm.
    destruct (path_matches (route_path rt) (path req)); [|discriminate].
    destruct (method_allowed rt (method req)); [discriminate|]. reflexivity.
  - right. right. split; [exact (find_route_none _ _ _ _ E)|].
    destruct (negb _ && _); [left | right]; reflexivity.
Qed.


(** Outside preflights the CORS layer keeps the status and the body of the
    response the routing layer produced. *)
Lemma asgi_app_nonpreflight (req : Request) (r : Response) :
  is_preflight req = false -> exception_mw router req = inl r ->
  status (asgi_app req) = status r /\ resp_body (asgi_app req) = resp_body r.
Proof.
  unfold is_preflight, asgi_app, server_error_mw, cors_mw. intros Hp Hr.
  destruct (hget "origin" (req_headers req)) as [o|].
  - rewrite Hp, Hr. split; reflexivity.
  - rewrite Hr. split; reflexivity.
Qed.

Lemma route_matches_full (r : Route) (m p : string) :
  route_matches r m p = MFull -> path_matches (route_path r) p = true /\ In m (route_methods r).
Proof.
  unfold route_matches, method_allowed.
  destruct (path_matches (route_path r) p) eqn:Ep; [|discriminate].
  destruct (existsb (String.eqb m) (route_methods r)) eqn:Em; [|discriminate].
  intros _. split; [reflexivity|].
  apply existsb_exists in Em as [m' [Hin Heq]]. apply String.eqb_eq in Heq. subst m'. exact Hin.
Qed.

Lemma route_matches_path_matches (r : Route) (m p : string) :
  path_matches (route_path r) p = true -> route_matches r m p <> MNone.
Proof.
  unfold route_matches. intros ->.
  destruct (method_allowed r m); discriminate.
Qed.

Lemma route_matches_same_path (r : Route) (m : string) :
  route_matches r m (route_path r) <> MNone.
Proof.
  apply route_matches_path_matches. unfold path_matches. rewrite String.eqb_refl. reflexivity.
Qed.

Ltac path_case H :=
  unfold path_matches in H; apply orb_true_iff in H;
  destruct H as [H|H]; apply String.eqb_eq in H; subst.

(** Two routes of the table whose regexes accept the same path are the
    same route. *)
Lemma app_routes_match_unique (r1 r2 : Route) (p : string) :
  In r1 app_routes -> In r2 app_routes ->
  path_matches (route_path r1) p = true -> path_matches (route_path r2) p = true -> r1 = r2.
Proof.
  simpl. intros Hr1 Hr2 H1 H2.
  destruct Hr1 as [<-|[<-|[<-|[<-|[<-|[]]]]]];
    destruct Hr2 as [<-|[<-|[<-|[<-|[<-|[]]]]]];
    first [reflexivity | simpl in H1; path_case H1; vm_compute in H2; discriminate H2].
Qed.

(** ** Claim C2: requests other than [GET /health] *)




(** ** Claim C3: CORS headers *)




Lemma hget_add_vary_other (k v : string) (hs : Headers) :
  k <> "vary" -> hget k (add_vary_header v hs) = hget k hs.
Proof.
  intro Hk. unfold add_vary_header.
  destruct (hget "vary" hs); apply hget_hset_other; exact Hk.
Qed.




(** ** Claim C10: CORS preflights *)

Lemma existsb_eqb_In (m : string) (xs : list string) :
  existsb (String.eqb m) xs = true <-> In m xs.
Proof.
  rewrite existsb_exists. split.
  - intros [x [Hin Hx]]. apply String.eqb_eq in Hx. subst. exact Hin.
  - intro Hin. exists m. split; [exact Hin | apply String.eqb_refl].
Qed.

(** C10, as stated, fails: a preflight asking for a method outside
    [ALL_METHODS] (here [TRACE]) is answered by the middleware with 400. *)
Lemma C10_counterexample :
  let req := mkRequest "OPTIONS" "/health" ""
               [("origin", "http://example.com");
                ("access-control-request-method", "TRACE")] "" in
  is_preflight req = true /\ status (asgi_app req) = 400
  /\ resp_body (asgi_app req) = BText "Disallowed CORS method".
Proof. repeat split. Qed.

(** C10 (amended): an [OPTIONS] request to any path with an [Origin] and
    an [Access-Control-Request-Method] header is answered by the CORS
    middleware itself, whatever the routing table says.  When the
    requested method is one of [DELETE, GET, HEAD, OPTIONS, PATCH, POST,
    PUT] the answer is 200 with the origin echoed, the allowed methods and
    [Access-Control-Allow-Credentials: true]; otherwise it is 400 with the
    body [Disallowed CORS method]. *)
Theorem C10_preflight_answered_by_middleware (req : Request) (o m : string)
  (Hm : method req = "OPTIONS")
  (Ho : hget "origin" (req_headers req) = Some o)
  (Hrm : hget "access-control-request-method" (req_headers req) = Some m) :
  asgi_app req = preflight_response main_cors (req_headers req)
  /\ (In m ALL_METHODS ->
      status (asgi_app req) = 200
      /\ hget "access-control-allow-origin" (resp_headers (asgi_app req)) = Some o
      /\ hget "access-control-allow-methods" (resp_headers (asgi_app req))
         = Some "DELETE, GET, HEAD, OPTIONS, PATCH, POST, PUT"
      /\ hget "access-control-allow-credentials" (resp_headers (asgi_app req)) = Some "true")
  /\ (~ In m ALL_METHODS ->
      status (asgi_app req) = 400
      /\ resp_body (asgi_app req) = BText "Disallowed CORS method").
Proof.
  assert (Happ : asgi_app req = preflight_response main_cors (req_headers req)).
  { unfold asgi_app, server_error_mw, cors_mw, hmem.
    rewrite Ho, Hm, Hrm. reflexivity. }
  rewrite Happ. split; [reflexivity|].
  unfold preflight_response. rewrite Ho, Hrm.
  change (cors_allow_methods main_cors) with ALL_METHODS.
  change (is_allowed_origin main_cors o) with true.
  change (preflight_explicit_allow_origin main_cors) with true.
  change (allow_all_headers main_cors) with true.
  cbn [andb app].
  destruct (existsb (String.eqb m) ALL_METHODS) eqn:Em.
  - apply existsb_eqb_In in Em.
    split; [intros _ | intro Hn; contradiction].
    destruct (hget "access-control-request-headers" (req_headers req)); simpl;
      repeat split.
  - split; [intro Hin; apply existsb_eqb_In in Hin; congruence | intros _].
    destruct (hget "access-control-request-headers" (req_headers req)); simpl;
      repeat split.
Qed.

Lemma C10_preflight_answered_by_middleware_witness :
  let req := mkRequest "OPTIONS" "/health" ""
               [("origin", "http://example.com");
                ("access-control-request-method", "POST")] "" in
  (method req = "OPTIONS"
   /\ hget "origin" (req_headers req) = Some "http://example.com"
   /\ hget "access-control-request-method" (req_headers req) = Some "POST") /\
  (asgi_app req = preflight_response main_cors (req_headers req)
   /\ (In "POST" ALL_METHODS ->
       status (asgi_app req) = 200
       /\ hget "access-control-allow-origin" (resp_headers (asgi_app req))
          = Some "http://example.com"
       /\ hget "access-control-allow-methods" (resp_headers (asgi_app req))
          = Some "DELETE, GET, HEAD, OPTIONS, PATCH, POST, PUT"
       /\ hget "access-control-allow-credentials" (resp_headers (asgi_app req))
          = Some "true")
   /\ (~ In "POST" ALL_METHODS ->
       status (asgi_app req) = 400
       /\ resp_body (asgi_app req) = BText "Disallowed CORS method")).
Proof.
  split; [repeat split|].
  apply C10_preflight_answered_by_middleware; reflexivity.
Defined.

(** ** Further properties of the application *)

Lemma asgi_app_preflight (req : Request) :
  is_preflight req = true -> asgi_app req = preflight_response main_cors (req_headers req).
Proof.
  unfold is_preflight, asgi_app, server_error_mw, cors_mw.
  destruct (hget "origin" (req_headers req)); [|discriminate].
  intros ->. reflexivity.
Qed.



(** X2: the application never reads the request body: two requests that
    differ only in their bodies get the same response and leave the server
    in the same state. *)
Theorem X2_body_ignored (st : ServerState) (m p q : string) (hs : Headers) (b1 b2 : string)
  (sc : Scheme) (sv : option (string * Z)) :
  serve st (mkScope m p q hs b1 sc sv) = serve st (mkScope m p q hs b2 sc sv).
Proof. reflexivity. Qed.

Lemma route_matches_not_none (r : Route) (m p : string) :
  route_matches r m p <> MNone -> path_matches (route_path r) p = true.
Proof.
  unfold route_matches. destruct (path_matches (route_path r) p); [reflexivity|].
  intro H. exfalso. apply H. reflexivity.
Qed.

(** Outside preflights, the CORS layer leaves every header other than its
    own and [vary] as the routing layer set it. *)
Lemma asgi_app_nonpreflight_hget (req : Request) (r : Response) (k : string) :
  is_preflight req = false -> exception_mw router req = inl r ->
  ~ In k ["access-control-allow-origin"; "access-control-allow-credentials"; "vary"] ->
  hget k (resp_headers (asgi_app req)) = hget k (resp_headers r).
Proof.
  unfold is_preflight, asgi_app, server_error_mw, cors_mw. intros Hp Hr Hk.
  assert (H1 : k <> "access-control-allow-origin") by (intro E; apply Hk; rewrite E; simpl; tauto).
  assert (H2 : k <> "access-control-allow-credentials") by (intro E; apply Hk; rewrite E; simpl; tauto).
  assert (H3 : k <> "vary") by (intro E; apply Hk; rewrite E; simpl; tauto).
  destruct (hget "origin" (req_headers req)) as [o|].
  - rewrite Hp, Hr. unfold cors_send. cbn [resp_headers].
    change (simple_headers main_cors)
      with [("access-control-allow-origin", "*"); ("access-control-allow-credentials", "true")].
    unfold hupdate. cbn [fold_left].
    change (allow_all_origins main_cors) with true. cbn [andb negb].
    destruct (hmem "cookie" (req_headers req)); unfold allow_explicit_origin;
      repeat rewrite hget_add_vary_other by exact H3;
      repeat rewrite hget_hset_other by assumption; reflexivity.
  - rewrite Hr. reflexivity.
Qed.








Definition health_route : Route := mkRoute "/health" ["GET"] (EApi health_check).

(** X3: outside preflights, a request on a path the [/health] route's
    regex accepts, with any method but [GET] ([HEAD] included), gets 405
    with the JSON body [{"detail": "Method Not Allowed"}] and the header
    [Allow: GET]. *)
Theorem X3_method_not_allowed (req : Request)
  (Hpre : is_preflight req = false)
  (Hp : path_matches "/health" (path req) = true) (Hm : method req <> "GET") :
  status (asgi_app req) = 405
  /\ resp_body (asgi_app req) = BJson (JObj [("detail", JStr "Method Not Allowed")])
  /\ hget "allow" (resp_headers (asgi_app req)) = Some "GET"
  /\ hget "content-type" (resp_headers (asgi_app req)) = Some "application/json".
Proof.
  assert (Hhr : In health_route app_routes) by (simpl; tauto).
  destruct (inner_cases req)
    as [[rt' [Hin' [Hm' H]]] | [[rt' [Hin' [Hm' H]]] | [Hnone _]]].
  - exfalso. apply route_matches_full in Hm' as [Hp' Hmeth].
    rewrite (app_routes_match_unique rt' health_route (path req) Hin' Hhr Hp' Hp) in Hmeth.
    destruct Hmeth as [Hmeth|[]]. congruence.
  - pose proof (route_matches_not_none rt' (method req) (path req)
                  ltac:(rewrite Hm'; discriminate)) as Hp'.
    rewrite (app_routes_match_unique rt' health_route (path req) Hin' Hhr Hp' Hp) in H.
    destruct (asgi_app_nonpreflight req _ Hpre H) as [Hs Hb].
    rewrite Hs, Hb.
    rewrite (asgi_app_nonpreflight_hget req _ "allow" Hpre H) by (simpl; intuition discriminate).
    rewrite (asgi_app_nonpreflight_hget req _ "content-type" Hpre H)
      by (simpl; intuition discriminate).
    repeat split.
  - exfalso. rewrite Forall_forall in Hnone.
    apply (route_matches_path_matches health_route (method req) (path req) Hp).
    exact (Hnone health_route Hhr).
Qed.

Lemma X3_method_not_allowed_witness :
  let req := mkRequest "HEAD" "/health" "" [] "" in
  (is_preflight req = false /\ path_matches "/health" (path req) = true
   /\ method req <> "GET") /\
  (status (asgi_app req) = 405
   /\ resp_body (asgi_app req) = BJson (JObj [("detail", JStr "Method Not Allowed")])
   /\ hget "allow" (resp_headers (asgi_app req)) = Some "GET"
   /\ hget "content-type" (resp_headers (asgi_app req)) = Some "application/json").
Proof.
  split; [split; [reflexivity | split; [reflexivity | discriminate]]|].
  apply X3_method_not_allowed; [reflexivity | reflexivity | discriminate].
Defined.



(** X5: the documentation routes [FastAPI()] registers answer [GET] and
    [HEAD] (outside preflights) with 200 and their generated document. *)
Theorem X5_docs_routes_served (req : Request)
  (Hpre : is_preflight req = false) (Hp : In (path req) doc_paths)
  (Hm : method req = "GET" \/ method req = "HEAD") :
  status (asgi_app req) = 200 /\ exists name, resp_body (asgi_app req) = BDocument name.
Proof.
  assert (H : exists r, exception_mw router req = inl r
                        /\ status r = 200 /\ exists name, resp_body r = BDocument name).
  { unfold exception_mw, router, route_handle.
    simpl in Hp.
    destruct Hp as [Hp|[Hp|[Hp|[Hp|[]]]]]; rewrite <- Hp;
      destruct Hm as [Hm|Hm]; rewrite Hm;
      solve [eexists; split; [reflexivity | split; [reflexivity | eexists; reflexivity]]]. }
  destruct H as [r [H [Hs [name Hb]]]].
  destruct (asgi_app_nonpreflight req _ Hpre H) as [Hs' Hb'].
  rewrite Hs', Hb'. split; [exact Hs | exists name; exact Hb].
Qed.

Lemma X5_docs_routes_served_witness :
  let req := mkRequest "HEAD" "/openapi.json" "" [] "" in
  (is_preflight req = false /\ In (path req) doc_paths
   /\ (method req = "GET" \/ method req = "HEAD")) /\
  (status (asgi_app req) = 200 /\ exists name, resp_body (asgi_app req) = BDocument name).
Proof.
  split; [split; [reflexivity | split; [simpl; tauto | right; reflexivity]]|].
  apply X5_docs_routes_served; [reflexivity | simpl; tauto | right; reflexivity].
Defined.

(** X6: every CORS preflight response, accepted or not, carries
    [Vary: Origin], [Access-Control-Max-Age: 600] and the echoed origin,
    and it echoes the [Access-Control-Request-Headers] value as
    [Access-Control-Allow-Headers] (none when the request names none). *)
Theorem X6_preflight_headers (req : Request) (o : string)
  (Hpre : is_preflight req = true) (Ho : hget "origin" (req_headers req) = Some o) :
  hget "vary" (resp_headers (asgi_app req)) = Some "Origin"
  /\ hget "access-control-max-age" (resp_headers (asgi_app req)) = Some "600"
  /\ hget "access-control-allow-origin" (resp_headers (asgi_app req)) = Some o
  /\ hget "access-control-allow-headers" (resp_headers (asgi_app req))
     = hget "access-control-request-headers" (req_headers req).
Proof.
  rewrite (asgi_app_preflight req Hpre).
  unfold preflight_response. rewrite Ho.
  change (cors_allow_methods main_cors) with ALL_METHODS.
  change (is_allowed_origin main_cors o) with true.
  change (preflight_explicit_allow_origin main_cors) with true.
  change (allow_all_headers main_cors) with true.
  cbn [andb app].
  destruct (hget "access-control-request-headers" (req_headers req)) as [rq|];
    destruct (existsb (String.eqb match hget "access-control-request-method"
                                         (req_headers req) with
                                   | Some m => m | None => "" end) ALL_METHODS);
    simpl; repeat split.
Qed.

Lemma X6_preflight_headers_witness :
  let req := mkRequest "OPTIONS" "/anything" ""
               [("origin", "http://example.com");
                ("access-control-request-method", "PUT");
                ("access-control-request-headers", "x-token")] "" in
  (is_preflight req = true /\ hget "origin" (req_headers req) = Some "http://example.com") /\
  (hget "vary" (resp_headers (asgi_app req)) = Some "Origin"
   /\ hget "access-control-max-age" (resp_headers (asgi_app req)) = Some "600"
   /\ hget "access-control-allow-origin" (resp_headers (asgi_app req))
      = Some "http://example.com"
   /\ hget "access-control-allow-headers" (resp_headers (asgi_app req))
      = hget "access-control-request-headers" (req_headers req)).
Proof.
  split; [split; reflexivity|].
  apply X6_preflight_headers; reflexivity.
Defined.


